(** * DAO bootstrap orchestrator ([src/hooks/useAutocrat.ts])

    A shallow embedding of the [useAutocrat] hook: the big-number nonce
    arithmetic, the order-book account provisioning
    ([createProgramAccount], [createOpenbookMarket]), the React state of
    the hook and the [initializeDao] callback, which is written in a small
    state monad that threads the key generator, the six transaction
    objects the callback mutates and the trace of observable operations.

    How the code is read:
    - addresses are symbolic terms: a derived address is the term of its
      seeds and program, the key of the n-th generated keypair is
      [PkKeypair n];
    - every awaited call (a vault request, a rent query, the blockhash
      query, the wallet) is answered by the world of the hook and may be
      rejected, which ends the callback there;
    - the six transactions of [initializeDao] are objects in a store,
      named after the variables that hold them; assigning a field or
      signing changes the object and is recorded in the trace;
    - [Transaction.sign] is read as applying the signatures of the
      keypairs it is given, in the order given. *)

From Stdlib Require Import NArith List String Bool Lia QArith.
Import ListNotations.
Set Warnings "-register-all".
Local Open Scope N_scope.
Local Open Scope string_scope.

(** ** Big numbers ([BN] of bn.js)

    [BN] is an arbitrary-precision integer; every value built in this file
    is non-negative, and [or]/[shln] are only defined by bn.js on
    non-negative operands. *)

Module BN.
Definition t := N.
Definition or (a b : t) : t := N.lor a b.
Definition shln (a : t) (bits : N) : t := N.shiftl a bits.
End BN.

(** ** Keys and addresses *)

(** A public key is either given from outside (a base58 literal, the wallet
    identity, a mint address), the public half of a keypair produced by
    [Keypair.generate()], a program-derived address, or an associated token
    address.  Derivation is kept symbolic: the address is the term made of
    its inputs. *)
Inductive Seed (K : Type) : Type :=
| SeedUtf8 (s : string)
| SeedKey (k : K).
Arguments SeedUtf8 {K} s.
Arguments SeedKey {K} k.

Inductive PublicKey : Type :=
| PkBase58 (s : string)
| PkKeypair (id : nat)
| PkProgramAddress (seeds : list (Seed PublicKey)) (programId : PublicKey)
| PkAssociatedToken (mint owner : PublicKey).

Record Keypair := { kp_id : nat }.

Definition publicKey (k : Keypair) : PublicKey := PkKeypair (kp_id k).

(** [PublicKey.findProgramAddressSync(seeds, programId)[0]] *)
Definition findProgramAddressSync
  (seeds : list (Seed PublicKey)) (programId : PublicKey) : PublicKey :=
  PkProgramAddress seeds programId.

(** [getAssociatedTokenAddressSync(mint, owner, true)] *)
Definition getAssociatedTokenAddressSync (mint owner : PublicKey) : PublicKey :=
  PkAssociatedToken mint owner.

Definition OPENBOOK_PROGRAM_ID : PublicKey :=
  PkBase58 "opnb2LAfJYbRMAHHvqjCwQxanZn7ReEHp1k81EohpZb".
Definition OPENBOOK_TWAP_PROGRAM_ID : PublicKey :=
  PkBase58 "2qjEsiMtWxAdqUSdaGM28pJRMtodnnkHZEoadc6JcFCb".
Definition AUTOCRAT_PROGRAM_ID : PublicKey :=
  PkBase58 "meta3cxKzFBmWYgCVozmvCQAS3y9b3fGxrG9HkHL7Wi".

Definition BooksideSpace : N := 90944 + 8.
Definition EventHeapSpace : N := 91280 + 8.

(** ** Vault nonces

    The four nonce expressions of [initializeDao], in source order. *)

Inductive VaultRole := BasePass | QuotePass | BaseFail | QuoteFail.

Definition basePassNonce (baseNonce : BN.t) : BN.t := baseNonce.
Definition quotePassNonce (baseNonce : BN.t) : BN.t :=
  BN.or baseNonce (BN.shln 1 63).
Definition baseFailNonce (baseNonce : BN.t) : BN.t :=
  BN.or baseNonce (BN.shln 1 62).
Definition quoteFailNonce (baseNonce : BN.t) : BN.t :=
  BN.or baseNonce (BN.shln 3 62).

Definition vaultNonce (r : VaultRole) (baseNonce : BN.t) : BN.t :=
  match r with
  | BasePass => basePassNonce baseNonce
  | QuotePass => quotePassNonce baseNonce
  | BaseFail => baseFailNonce baseNonce
  | QuoteFail => quoteFailNonce baseNonce
  end.

(** ** Instructions and transactions *)

Definition Blockhash := string.

Record OracleConfigParams := {
  confFilter : Q;
  maxStalenessSlots : N
}.

Record CreateMarketArgs := {
  cm_name : string;
  cm_oracleConfigParams : OracleConfigParams;
  cm_quoteLotSize : BN.t;
  cm_baseLotSize : BN.t;
  cm_makerFee : BN.t;
  cm_takerFee : BN.t;
  cm_timeExpiry : BN.t
}.

Record CreateMarketAccounts := {
  cm_market : PublicKey;
  cm_marketAuthority : PublicKey;
  cm_bids : PublicKey;
  cm_asks : PublicKey;
  cm_eventHeap : PublicKey;
  cm_payer : PublicKey;
  cm_marketBaseVault : PublicKey;
  cm_marketQuoteVault : PublicKey;
  cm_baseMint : PublicKey;
  cm_quoteMint : PublicKey;
  cm_oracleA : option PublicKey;
  cm_oracleB : option PublicKey;
  cm_collectFeeAdmin : PublicKey;
  cm_openOrdersAdmin : option PublicKey;
  cm_consumeEventsAdmin : option PublicKey;
  cm_closeMarketAdmin : option PublicKey;
  cm_eventAuthority : PublicKey;
  cm_program : PublicKey
}.

(** The instructions the hook builds itself, and [RawInstruction] for the
    ones that come back inside the transactions of [initializeVault]. *)
Inductive Instruction :=
| SystemCreateAccount
    (fromPubkey newAccountPubkey : PublicKey) (lamports space : N)
    (programId : PublicKey)
| OpenbookCreateMarket (args : CreateMarketArgs) (accounts : CreateMarketAccounts)
| TwapCreateTwapMarket (expectedValue : BN.t) (market twapMarket payer : PublicKey)
| AutocratInitializeDao (dao metaMint usdcMint : PublicKey)
| RawInstruction (programId : PublicKey) (keys : list PublicKey) (data : list N).



Record Transaction := {
  instructions : list Instruction;
  feePayer : option PublicKey;
  recentBlockhash : option Blockhash;
  signers : list Keypair
}.

(** [new Transaction()] *)
Definition newTransaction : Transaction :=
  {| instructions := []; feePayer := None; recentBlockhash := None; signers := [] |}.

(** An argument of [Transaction.add]: a whole transaction, whose
    instructions are spliced in, or a single instruction. *)
Inductive TxItem :=
| ItemTx (t : Transaction)
| ItemIx (i : Instruction).

Definition itemInstructions (it : TxItem) : list Instruction :=
  match it with
  | ItemTx t => instructions t
  | ItemIx i => [i]
  end.

Definition Transaction_add (t : Transaction) (items : list TxItem) : Transaction :=
  {| instructions := instructions t ++ flat_map itemInstructions items;
     feePayer := feePayer t;
     recentBlockhash := recentBlockhash t;
     signers := signers t |}.


(** ** The outside world

    Everything the hook awaits is an answer of the outside world and may be
    a rejection ([None]). *)

Record Connection := {
  (** the answer to the k-th blockhash query made so far *)
  getLatestBlockhash : nat -> option Blockhash;
  getMinimumBalanceForRentExemption : N -> option N;
  (** the transaction signature, or a rejection *)
  sendRawTransaction : Transaction -> option string
}.

Record Provider := { provider_connection : Connection }.

Record Program := {
  programId : PublicKey;
  program_provider : Provider
}.

Record Token := { token_publicKey : option PublicKey }.
Record Tokens := { meta : option Token; usdc : option Token }.

Record Wallet := {
  wallet_publicKey : option PublicKey;
  signAllTransactions : option (list Transaction -> option (list Transaction))
}.

(** What [initializeVault] of [useConditionalVault] hands back. *)
Record VaultResult := {
  vault_tx : Transaction;
  vault_signers : list Keypair
}.

Record DaoState := { proposalCount : N }.

(** ** Operations, state and the monad of the callback *)

(** The six transaction objects [initializeDao] builds and then mutates,
    named after its local variables. *)
Inductive TxVar :=
| baseVaultTx | quoteVaultTx | daoTx | passMarketTx | failMarketTx | twapsTx.

Scheme Equality for TxVar.

Inductive Event :=
| EvInitializeVault (settlementAuthority mint : PublicKey) (nonce : BN.t)
| EvGetMinimumBalanceForRentExemption (size : N)
| EvKeypairGenerate (k : Keypair)
| EvGetLatestBlockhash (answer : option Blockhash)
| EvSetFeePayer (v : TxVar) (pk : PublicKey)
| EvSetRecentBlockhash (v : TxVar) (bh : Blockhash)
| EvSign (v : TxVar) (ks : list Keypair)
| EvSignAllTransactions (txs : list (TxVar * Transaction))
| EvSendRawTransaction (tx : Transaction) (skipPreflight : bool).

Record State := {
  nextKeypair : nat;
  blockhashQueries : nat;
  store : TxVar -> Transaction
}.

Record Result (A : Type) := {
  value : option A;
  state : State;
  events : list Event
}.
Arguments value {A} r.
Arguments state {A} r.
Arguments events {A} r.

Definition M (A : Type) : Type := State -> Result A.

Definition ret {A} (a : A) : M A :=
  fun s => {| value := Some a; state := s; events := [] |}.

Definition throw {A} : M A :=
  fun s => {| value := None; state := s; events := [] |}.

Definition bind {A B} (m : M A) (f : A -> M B) : M B :=
  fun s =>
    match m s with
    | {| value := Some a; state := s1; events := e1 |} =>
        match f a s1 with
        | {| value := b; state := s2; events := e2 |} =>
            {| value := b; state := s2; events := e1 ++ e2 |}
        end
    | {| value := None; state := s1; events := e1 |} =>
        {| value := None; state := s1; events := e1 |}
    end.

Notation "x <- m ;; k" := (bind m (fun x => k))
  (at level 61, m at next level, right associativity).
Notation "m ;;; k" := (bind m (fun _ => k))
  (at level 61, right associativity).

(** An awaited answer: the operation is recorded, a rejection throws. *)
Definition await {A} (e : Event) (answer : option A) : M A :=
  fun s => {| value := answer; state := s; events := [e] |}.

Definition Keypair_generate : M Keypair :=
  fun s =>
    let k := {| kp_id := nextKeypair s |} in
    {| value := Some k;
       state := {| nextKeypair := S (nextKeypair s);
                   blockhashQueries := blockhashQueries s;
                   store := store s |};
       events := [EvKeypairGenerate k] |}.

Definition rpcGetLatestBlockhash (c : Connection) : M Blockhash :=
  fun s =>
    let answer := getLatestBlockhash c (blockhashQueries s) in
    {| value := answer;
       state := {| nextKeypair := nextKeypair s;
                   blockhashQueries := S (blockhashQueries s);
                   store := store s |};
       events := [EvGetLatestBlockhash answer] |}.

Definition upd (sto : TxVar -> Transaction) (v : TxVar) (t : Transaction)
  : TxVar -> Transaction :=
  fun w => if TxVar_beq v w then t else sto w.

Definition modifyTx (v : TxVar) (f : Transaction -> Transaction) (evs : list Event)
  : M unit :=
  fun s =>
    {| value := Some tt;
       state := {| nextKeypair := nextKeypair s;
                   blockhashQueries := blockhashQueries s;
                   store := upd (store s) v (f (store s v)) |};
       events := evs |}.

(** [const v = new Transaction().add(...items)] *)
Definition newTx (v : TxVar) (items : list TxItem) : M unit :=
  modifyTx v (fun _ => Transaction_add newTransaction items) [].

(** [v.feePayer = pk] *)
Definition setFeePayer (v : TxVar) (pk : PublicKey) : M unit :=
  modifyTx v (fun t => {| instructions := instructions t; feePayer := Some pk;
                          recentBlockhash := recentBlockhash t;
                          signers := signers t |})
           [EvSetFeePayer v pk].

(** [v.recentBlockhash = bh] *)
Definition setRecentBlockhash (v : TxVar) (bh : Blockhash) : M unit :=
  modifyTx v (fun t => {| instructions := instructions t; feePayer := feePayer t;
                          recentBlockhash := Some bh;
                          signers := signers t |})
           [EvSetRecentBlockhash v bh].

(** [v.sign(...ks)]: the transaction now carries the signatures of [ks]. *)
Definition sign (v : TxVar) (ks : list Keypair) : M unit :=
  modifyTx v (fun t => {| instructions := instructions t; feePayer := feePayer t;
                          recentBlockhash := recentBlockhash t;
                          signers := ks |})
           [EvSign v ks].

(** [await wallet.signAllTransactions(txs)]: the wallet sees the transactions
    as they are at that moment. *)
Definition walletSignAll
  (signAll : list Transaction -> option (list Transaction)) (txs : list TxVar)
  : M (list Transaction) :=
  fun s =>
    let snapshot := map (store s) txs in
    {| value := signAll snapshot; state := s;
       events := [EvSignAllTransactions (combine txs snapshot)] |}.

(** [await Promise.all(signedTxs.map(tx => connection.sendRawTransaction(
    tx.serialize(), { skipPreflight: true })))]: every send is started; the
    whole rejects when one of them does. *)
Definition sendAll (c : Connection) (signedTxs : list Transaction) : M unit :=
  fun s =>
    {| value := if forallb (fun tx => match sendRawTransaction c tx with
                                      | Some _ => true | None => false end)
                           signedTxs
                then Some tt else None;
       state := s;
       events := map (fun tx => EvSendRawTransaction tx true) signedTxs |}.

(** ** Order-book account provisioning *)

Record ProgramAccount := {
  pa_tx : Transaction;
  pa_signers : list Keypair
}.

Definition createProgramAccount
  (program : Program) (authority : PublicKey) (size : N) : M ProgramAccount :=
  lamports <- await (EvGetMinimumBalanceForRentExemption size)
                (getMinimumBalanceForRentExemption
                   (provider_connection (program_provider program)) size) ;;
  address <- Keypair_generate ;;
  let tx := Transaction_add newTransaction
              [ItemIx (SystemCreateAccount authority (publicKey address)
                         lamports size (programId program))] in
  ret {| pa_tx := tx; pa_signers := [address] |}.

Record OpenbookMarket := {
  om_signers : list Keypair;
  om_instructions : list TxItem
}.

(** [xs[0]]; reading a field of the missing element throws. *)
Definition first {A} (xs : list A) : M A :=
  match xs with
  | x :: _ => ret x
  | [] => throw
  end.

Definition defaultOracleConfigParams : OracleConfigParams :=
  {| confFilter := (1 # 10)%Q; maxStalenessSlots := 100 |}.

Definition createOpenbookMarket
  (program : Program) (creator baseMint quoteMint : PublicKey) (name : string)
  (quoteLotSize baseLotSize makerFee takerFee timeExpiry : BN.t)
  (oracleA oracleB openOrdersAdmin consumeEventsAdmin closeMarketAdmin
     : option PublicKey)
  (oracleConfigParams : option OracleConfigParams)
  (market : option Keypair)
  (collectFeeAdmin : option PublicKey) : M OpenbookMarket :=
  oracleConfigParams <- ret match oracleConfigParams with
                            | Some p => p
                            | None => defaultOracleConfigParams
                            end ;;
  market <- match market with
            | Some k => ret k
            | None => Keypair_generate
            end ;;
  bids <- createProgramAccount program creator BooksideSpace ;;
  asks <- createProgramAccount program creator BooksideSpace ;;
  eventHeap <- createProgramAccount program creator EventHeapSpace ;;
  let marketAuthority :=
    findProgramAddressSync [SeedUtf8 "Market"; SeedKey (publicKey market)]
                           (programId program) in
  let baseVault := getAssociatedTokenAddressSync baseMint marketAuthority in
  let quoteVault := getAssociatedTokenAddressSync quoteMint marketAuthority in
  let eventAuthority :=
    findProgramAddressSync [SeedUtf8 "__event_authority"] (programId program) in
  bids0 <- first (pa_signers bids) ;;
  asks0 <- first (pa_signers asks) ;;
  eventHeap0 <- first (pa_signers eventHeap) ;;
  ret {| om_signers := pa_signers bids ++ pa_signers asks ++ pa_signers eventHeap;
         om_instructions :=
           [ItemTx (pa_tx bids);
            ItemTx (pa_tx asks);
            ItemTx (pa_tx eventHeap);
            ItemIx (OpenbookCreateMarket
                      {| cm_name := name;
                         cm_oracleConfigParams := oracleConfigParams;
                         cm_quoteLotSize := quoteLotSize;
                         cm_baseLotSize := baseLotSize;
                         cm_makerFee := makerFee;
                         cm_takerFee := takerFee;
                         cm_timeExpiry := timeExpiry |}
                      {| cm_market := publicKey market;
                         cm_marketAuthority := marketAuthority;
                         cm_bids := publicKey bids0;
                         cm_asks := publicKey asks0;
                         cm_eventHeap := publicKey eventHeap0;
                         cm_payer := creator;
                         cm_marketBaseVault := baseVault;
                         cm_marketQuoteVault := quoteVault;
                         cm_baseMint := baseMint;
                         cm_quoteMint := quoteMint;
                         cm_oracleA := oracleA;
                         cm_oracleB := oracleB;
                         cm_collectFeeAdmin :=
                           match collectFeeAdmin with
                           | Some a => a
                           | None => creator
                           end;
                         cm_openOrdersAdmin := openOrdersAdmin;
                         cm_consumeEventsAdmin := consumeEventsAdmin;
                         cm_closeMarketAdmin := closeMarketAdmin;
                         cm_eventAuthority := eventAuthority;
                         cm_program := programId program |})] |}.

(** ** The hook *)

(** What one render of [useAutocrat] closes over: the results of the other
    hooks and its own piece of React state.  [initializeVault] is defined in
    [useConditionalVault], outside the files embedded here: the hook takes
    it as given, as the answer to each call. *)
Record Hook := {
  provider : Provider;
  wallet : option Wallet;
  connection : option Connection;
  (** the answer of [initializeVault] to a call, or a rejection *)
  initializeVault : PublicKey -> PublicKey -> BN.t -> option VaultResult;
  tokens : option Tokens;
  daoState : option DaoState
}.

Definition dao : PublicKey :=
  findProgramAddressSync [SeedUtf8 "WWCACOTMICMIBMHAFTTWYGHMB"] AUTOCRAT_PROGRAM_ID.

Definition daoTreasury : PublicKey :=
  findProgramAddressSync [SeedKey dao] AUTOCRAT_PROGRAM_ID.

Definition openbook (h : Hook) : Program :=
  {| programId := OPENBOOK_PROGRAM_ID; program_provider := provider h |}.

Definition openbookTwap (h : Hook) : Program :=
  {| programId := OPENBOOK_TWAP_PROGRAM_ID; program_provider := provider h |}.

(** JavaScript [x || d] on a number that may be missing. *)
Definition orElse (x : option N) (d : N) : N :=
  match x with
  | Some v => if N.eqb v 0 then d else v
  | None => d
  end.

(** [new BN(daoState?.proposalCount || 0)] *)
Definition baseNonce (h : Hook) : BN.t :=
  orElse (option_map proposalCount (daoState h)) 0.

(** Truthiness of a reference that may be [undefined] or [null]. *)
Definition truthy {A} (x : option A) : bool :=
  match x with Some _ => true | None => false end.

(** [fetchState] of the effect: a failed fetch is logged and the state kept. *)
Definition fetchState (fetch : PublicKey -> option DaoState) (h : Hook) : Hook :=
  match fetch dao with
  | Some d =>
      {| provider := provider h; wallet := wallet h; connection := connection h;
         initializeVault := initializeVault h; tokens := tokens h;
         daoState := Some d |}
  | None => h
  end.

(** The body of [useEffect(..., [dao])]; [dao] holds a [PublicKey] object. *)
Definition daoEffect (fetch : PublicKey -> option DaoState) (h : Hook) : Hook :=
  if negb (truthy (Some dao)) then fetchState fetch h else h.

(** The states of the hook: mounted with [useState()] empty, then any
    number of effect runs and of re-renders with new results of the other
    hooks, which leave the React state as it is. *)
Inductive reachable : Hook -> Prop :=
| reach_mount h : daoState h = None -> reachable h
| reach_effect h fetch : reachable h -> reachable (daoEffect fetch h)
| reach_render h h' : reachable h -> daoState h' = daoState h -> reachable h'.

(** ** [initializeDao] *)

Definition optBind {A B} (x : option A) (f : A -> option B) : option B :=
  match x with Some a => f a | None => None end.

(** [tokens?.meta?.publicKey], [tokens?.usdc?.publicKey], [wallet?.publicKey] *)
Definition metaPublicKey (h : Hook) : option PublicKey :=
  optBind (optBind (tokens h) meta) token_publicKey.
Definition usdcPublicKey (h : Hook) : option PublicKey :=
  optBind (optBind (tokens h) usdc) token_publicKey.
Definition walletPublicKey (h : Hook) : option PublicKey :=
  optBind (wallet h) wallet_publicKey.
Definition walletSignAllTransactions (h : Hook)
  : option (list Transaction -> option (list Transaction)) :=
  optBind (wallet h) signAllTransactions.

Definition callInitializeVault
  (h : Hook) (settlementAuthority mint : PublicKey) (nonce : BN.t) : M VaultResult :=
  await (EvInitializeVault settlementAuthority mint nonce)
        (initializeVault h settlementAuthority mint nonce).

Definition twapMarketAddress (h : Hook) (market : Keypair) : PublicKey :=
  findProgramAddressSync [SeedUtf8 "twap_market"; SeedKey (publicKey market)]
                         (programId (openbookTwap h)).

(** [xs.push(...items)] *)
Definition push {A} (xs items : list A) : list A := (xs ++ items)%list.

(** The callback past its guard. *)
Definition initializeDaoBody
  (h : Hook) (metaMint usdcMint walletKey : PublicKey)
  (signAll : list Transaction -> option (list Transaction))
  (conn : Connection) : M unit :=
  basePassVault <- callInitializeVault h daoTreasury metaMint
                     (basePassNonce (baseNonce h)) ;;
  quotePassVault <- callInitializeVault h daoTreasury usdcMint
                      (quotePassNonce (baseNonce h)) ;;
  baseFailVault <- callInitializeVault h daoTreasury metaMint
                     (baseFailNonce (baseNonce h)) ;;
  quoteFailVault <- callInitializeVault h daoTreasury usdcMint
                      (quoteFailNonce (baseNonce h)) ;;

  openbookPassMarketKP <- Keypair_generate ;;
  let openbookTwapPassMarket := twapMarketAddress h openbookPassMarketKP in
  openbookPassMarket <-
    createOpenbookMarket (openbook h) walletKey metaMint usdcMint
      "Pass-Market" 100 1000000000 0 0 0
      None None (Some openbookTwapPassMarket) None (Some openbookTwapPassMarket)
      (Some {| confFilter := (1 # 10)%Q; maxStalenessSlots := 100 |})
      (Some openbookPassMarketKP) None ;;
  let createPassTwapMarketIx :=
    TwapCreateTwapMarket 1000 (publicKey openbookPassMarketKP)
                         openbookTwapPassMarket walletKey in

  openbookFailMarketKP <- Keypair_generate ;;
  let openbookTwapFailMarket := twapMarketAddress h openbookFailMarketKP in
  openbookFailMarket <-
    createOpenbookMarket (openbook h) walletKey metaMint usdcMint
      "fMETA/fUSDC" 100 1000000000 0 0 0
      None None (Some openbookTwapFailMarket) None (Some openbookTwapFailMarket)
      (Some {| confFilter := (1 # 10)%Q; maxStalenessSlots := 100 |})
      (Some openbookFailMarketKP) None ;;
  let createFailTwapMarketIx :=
    TwapCreateTwapMarket 1000 (publicKey openbookFailMarketKP)
                         openbookTwapFailMarket walletKey in

  let txs : list TxVar := [] in

  newTx baseVaultTx [ItemTx (vault_tx basePassVault);
                     ItemTx (vault_tx baseFailVault)] ;;;
  newTx quoteVaultTx [ItemTx (vault_tx quotePassVault);
                      ItemTx (vault_tx quoteFailVault)] ;;;
  newTx daoTx [ItemIx (AutocratInitializeDao dao metaMint usdcMint)] ;;;
  newTx passMarketTx (om_instructions openbookPassMarket) ;;;
  newTx failMarketTx (om_instructions openbookFailMarket) ;;;
  newTx twapsTx [ItemIx createPassTwapMarketIx; ItemIx createFailTwapMarketIx] ;;;

  blockhask <- rpcGetLatestBlockhash conn ;;
  setFeePayer baseVaultTx walletKey ;;;
  setRecentBlockhash baseVaultTx blockhask ;;;
  setFeePayer quoteVaultTx walletKey ;;;
  setRecentBlockhash quoteVaultTx blockhask ;;;
  setFeePayer daoTx walletKey ;;;
  setRecentBlockhash daoTx blockhask ;;;
  setFeePayer twapsTx walletKey ;;;
  setRecentBlockhash twapsTx blockhask ;;;
  setFeePayer passMarketTx walletKey ;;;
  setRecentBlockhash passMarketTx blockhask ;;;
  setFeePayer failMarketTx walletKey ;;;
  setRecentBlockhash failMarketTx blockhask ;;;

  sign baseVaultTx (vault_signers basePassVault ++ vault_signers baseFailVault) ;;;
  sign quoteVaultTx (vault_signers quotePassVault ++ vault_signers quoteFailVault) ;;;
  sign passMarketTx (om_signers openbookPassMarket ++ [openbookPassMarketKP]) ;;;
  sign failMarketTx (om_signers openbookFailMarket ++ [openbookFailMarketKP]) ;;;

  let txs := push txs [passMarketTx; failMarketTx] in
  let txs := push txs [baseVaultTx; quoteVaultTx] in
  let txs := push txs [daoTx] in

  signedTxs <- walletSignAll signAll txs ;;
  sendAll conn signedTxs.

Definition initializeDao (h : Hook) : M unit :=
  match metaPublicKey h, usdcPublicKey h, walletPublicKey h,
        walletSignAllTransactions h, connection h with
  | Some metaMint, Some usdcMint, Some walletKey, Some signAll, Some conn =>
      initializeDaoBody h metaMint usdcMint walletKey signAll conn
  | _, _, _, _, _ => ret tt
  end.

(** ** Reading a trace *)

(** The nonces handed to [initializeVault], in call order. *)
Definition vaultNonces (evs : list Event) : list BN.t :=
  flat_map (fun e => match e with
                     | EvInitializeVault _ _ n => [n]
                     | _ => []
                     end) evs.

(** The batches handed to the wallet. *)
Definition walletBatches (evs : list Event) : list (list (TxVar * Transaction)) :=
  flat_map (fun e => match e with
                     | EvSignAllTransactions l => [l]
                     | _ => []
                     end) evs.

(** The answers to the blockhash queries. *)
Definition blockhashFetches (evs : list Event) : list (option Blockhash) :=
  flat_map (fun e => match e with
                     | EvGetLatestBlockhash a => [a]
                     | _ => []
                     end) evs.

(** The transactions sent to the network. *)
Definition sentTransactions (evs : list Event) : list Transaction :=
  flat_map (fun e => match e with
                     | EvSendRawTransaction t _ => [t]
                     | _ => []
                     end) evs.

(** The sizes for which the rent-exempt minimum was asked. *)
Definition rentQueries (evs : list Event) : list N :=
  flat_map (fun e => match e with
                     | EvGetMinimumBalanceForRentExemption n => [n]
                     | _ => []
                     end) evs.

(** ** A concrete world, to run the callback on *)

Module Demo.
Definition conn : Connection :=
  {| getLatestBlockhash := fun k => Some (if Nat.eqb k 0 then "hash0" else "hashN");
     getMinimumBalanceForRentExemption := fun size => Some (size * 7);
     sendRawTransaction := fun _ => Some "sig" |}.

Definition walletKey : PublicKey := PkBase58 "wallet".
Definition metaMint : PublicKey := PkBase58 "META".
Definition usdcMint : PublicKey := PkBase58 "USDC".

Definition theWallet : Wallet :=
  {| wallet_publicKey := Some walletKey;
     signAllTransactions := Some (fun txs => Some txs) |}.

(** A vault whose conditional-token mint is a keypair of its own. *)
Definition vaults (authority mint : PublicKey) (nonce : BN.t) : option VaultResult :=
  let k := {| kp_id := 1000 + N.to_nat (nonce / 2 ^ 62) |} in
  Some {| vault_tx :=
            Transaction_add newTransaction
              [ItemIx (RawInstruction (PkBase58 "vault")
                         [authority; mint; publicKey k] [nonce])];
          vault_signers := [k] |}.

Definition hook (count : option N) : Hook :=
  {| provider := {| provider_connection := conn |};
     wallet := Some theWallet;
     connection := Some conn;
     initializeVault := vaults;
     tokens := Some {| meta := Some {| token_publicKey := Some metaMint |};
                       usdc := Some {| token_publicKey := Some usdcMint |} |};
     daoState := option_map (fun c => {| proposalCount := c |}) count |}.

Definition start : State :=
  {| nextKeypair := 0; blockhashQueries := 0; store := fun _ => newTransaction |}.
End Demo.

(** ** Properties of traces and transactions *)





Definition feePayerAssigned (v : TxVar) (evs : list Event) : Prop :=
  exists pk, In (EvSetFeePayer v pk) evs.

Definition blockhashAssigned (v : TxVar) (evs : list Event) : Prop :=
  exists bh, In (EvSetRecentBlockhash v bh) evs.

Definition mem (v : TxVar) (vs : list TxVar) : bool := existsb (TxVar_beq v) vs.

Definition partiallySignedBy (v : TxVar) (evs : list Event) : Prop :=
  exists ks, In (EvSign v ks) evs.

(** The transactions [initializeDao] signs with fresh keypairs. *)
Definition partiallySigned : list TxVar :=
  [baseVaultTx; quoteVaultTx; passMarketTx; failMarketTx].

(** The order of operations the callback has to respect, at every point
    [e] of a trace [evs1 ++ e :: evs2]: a transaction is signed with
    keypairs only after its fee payer and blockhash are assigned and before
    the wallet is asked; the wallet is asked only for transactions whose fee
    payer and blockhash are assigned, and once the partial signing is done. *)
Definition orderRespected (evs : list Event) : Prop :=
  forall evs1 e evs2, evs = (evs1 ++ e :: evs2)%list ->
    (forall v ks, e = EvSign v ks ->
       feePayerAssigned v evs1 /\ blockhashAssigned v evs1
       /\ forall l, ~ In (EvSignAllTransactions l) evs1)
    /\ (forall l, e = EvSignAllTransactions l ->
          (forall v t, In (v, t) l ->
             feePayerAssigned v evs1 /\ blockhashAssigned v evs1)
          /\ (forall v, In v partiallySigned -> partiallySignedBy v evs1)
          /\ (forall v ks, ~ In (EvSign v ks) evs2)).

(** A checker for that order: [fee], [hash] and [signed] collect the
    transactions whose fee payer and blockhash have been assigned and which
    have been signed with keypairs, [asked] tells whether the wallet has
    been asked to sign. *)
Fixpoint ordered (fee hash signed : list TxVar) (asked : bool) (evs : list Event)
  : bool :=
  match evs with
  | [] => true
  | e :: rest =>
      match e with
      | EvSetFeePayer v _ => ordered (v :: fee) hash signed asked rest
      | EvSetRecentBlockhash v _ => ordered fee (v :: hash) signed asked rest
      | EvSign v _ =>
          mem v fee && mem v hash && negb asked
          && ordered fee hash (v :: signed) asked rest
      | EvSignAllTransactions l =>
          forallb (fun vt => mem (fst vt) fee && mem (fst vt) hash) l
          && forallb (fun v => mem v signed) partiallySigned
          && ordered fee hash signed true rest
      | _ => ordered fee hash signed asked rest
      end
  end.

(** The instruction sequence of one order-book market: three account
    creations paid by [creator] and the market creation that uses them. *)
Definition marketGroup
  (creator : PublicKey) (name : string) (ixs : list Instruction) : Prop :=
  exists bids asks eventHeap lb la le args accounts,
    ixs = [SystemCreateAccount creator bids lb BooksideSpace OPENBOOK_PROGRAM_ID;
           SystemCreateAccount creator asks la BooksideSpace OPENBOOK_PROGRAM_ID;
           SystemCreateAccount creator eventHeap le EventHeapSpace OPENBOOK_PROGRAM_ID;
           OpenbookCreateMarket args accounts]
    /\ cm_name args = name
    /\ cm_bids accounts = bids
    /\ cm_asks accounts = asks
    /\ cm_eventHeap accounts = eventHeap
    /\ cm_payer accounts = creator.

Definition vaultCreationsOf
  (h : Hook) (mint : PublicKey) (passRole failRole : VaultRole)
  (ixs : list Instruction) : Prop :=
  exists pass fail,
    initializeVault h daoTreasury mint (vaultNonce passRole (baseNonce h)) = Some pass
    /\ initializeVault h daoTreasury mint (vaultNonce failRole (baseNonce h)) = Some fail
    /\ ixs = (instructions (vault_tx pass) ++ instructions (vault_tx fail))%list.

Definition twapGroup (payer : PublicKey) (passMarket failMarket : PublicKey)
  (ixs : list Instruction) : Prop :=
  exists passTwap failTwap,
    ixs = [TwapCreateTwapMarket 1000 passMarket passTwap payer;
           TwapCreateTwapMarket 1000 failMarket failTwap payer].

(** The market a market group creates. *)
Definition marketOf (ixs : list Instruction) : option PublicKey :=
  match ixs with
  | [_; _; _; OpenbookCreateMarket _ accounts] => Some (cm_market accounts)
  | _ => None
  end.

(** The transaction object a run of the callback leaves in the variable [v]. *)
Definition finalTx (h : Hook) (st : State) (v : TxVar) : Transaction :=
  store (state (initializeDao h st)) v.

(** The four nonce expressions, in the order of the calls. *)
Definition allNonces (base : BN.t) : list BN.t :=
  [basePassNonce base; quotePassNonce base; baseFailNonce base; quoteFailNonce base].

(** ** More of the concrete world *)

(** The run of the callback in the concrete world, with no Dao state cached. *)
Definition demoRun : Result unit := initializeDao (Demo.hook None) Demo.start.

(** A wallet that cannot sign batches. *)
Definition hookWithoutSignAll : Hook :=
  {| provider := provider (Demo.hook None);
     wallet := Some {| wallet_publicKey := Some Demo.walletKey;
                       signAllTransactions := None |};
     connection := connection (Demo.hook None);
     initializeVault := initializeVault (Demo.hook None);
     tokens := tokens (Demo.hook None);
     daoState := None |}.

(** A chain on which the Dao has already counted seven proposals. *)
Definition sevenProposals (_ : PublicKey) : option DaoState :=
  Some {| proposalCount := 7 |}.

Definition demoProgram : Program :=
  {| programId := OPENBOOK_PROGRAM_ID;
     program_provider := {| provider_connection := Demo.conn |} |}.

(** The trace of [demoRun] around the moment the wallet is asked. *)
Definition demoBefore : list Event :=
  Eval vm_compute in firstn 35 (events demoRun).

Definition demoBatch : list (TxVar * Transaction) :=
  Eval vm_compute in List.concat (walletBatches (events demoRun)).

Definition demoAfter : list Event :=
  Eval vm_compute in skipn 36 (events demoRun).

(** [orderRespected], with what happened before the trace began. *)
Definition orderRespectedFrom
  (fee hash signed : list TxVar) (asked : bool) (evs : list Event) : Prop :=
  forall evs1 e evs2, evs = (evs1 ++ e :: evs2)%list ->
    (forall v ks, e = EvSign v ks ->
       (In v fee \/ feePayerAssigned v evs1)
       /\ (In v hash \/ blockhashAssigned v evs1)
       /\ asked = false
       /\ forall l, ~ In (EvSignAllTransactions l) evs1)
    /\ (forall l, e = EvSignAllTransactions l ->
          (forall v t, In (v, t) l ->
             (In v fee \/ feePayerAssigned v evs1)
             /\ (In v hash \/ blockhashAssigned v evs1))
          /\ (forall v, In v partiallySigned ->
                In v signed \/ partiallySignedBy v evs1)
          /\ (forall v ks, ~ In (EvSign v ks) evs2)).

(** ** More readings of a trace and of a transaction *)

(** The flag a role contributes to a nonce. *)
Definition roleFlag (r : VaultRole) : BN.t := vaultNonce r 0.

(** The calls to [initializeVault], in call order. *)
Definition vaultCalls (evs : list Event) : list (PublicKey * PublicKey * BN.t) :=
  flat_map (fun e => match e with
                     | EvInitializeVault a m n => [(a, m, n)]
                     | _ => []
                     end) evs.

(** The vault calls of a complete run: base-pass, quote-pass, base-fail,
    quote-fail. *)
Definition expectedVaultCalls (h : Hook) : list (PublicKey * PublicKey * BN.t) :=
  match metaPublicKey h, usdcPublicKey h with
  | Some metaMint, Some usdcMint =>
      [(daoTreasury, metaMint, basePassNonce (baseNonce h));
       (daoTreasury, usdcMint, quotePassNonce (baseNonce h));
       (daoTreasury, metaMint, baseFailNonce (baseNonce h));
       (daoTreasury, usdcMint, quoteFailNonce (baseNonce h))]
  | _, _ => []
  end.

(** The keypairs generated, in order. *)
Definition generatedKeypairs (evs : list Event) : list Keypair :=
  flat_map (fun e => match e with
                     | EvKeypairGenerate k => [k]
                     | _ => []
                     end) evs.

(** The transactions signed with keypairs, in order. *)
Definition signedVars (evs : list Event) : list TxVar :=
  flat_map (fun e => match e with
                     | EvSign v _ => [v]
                     | _ => []
                     end) evs.

(** Whether every send of the trace skips the preflight simulation. *)
Definition preflightSkipped (evs : list Event) : bool :=
  forallb (fun e => match e with
                    | EvSendRawTransaction _ b => b
                    | _ => true
                    end) evs.

(** The create-market instruction that closes a market group. *)
Definition createMarketOf (ixs : list Instruction)
  : option (CreateMarketArgs * CreateMarketAccounts) :=
  match ixs with
  | [_; _; _; OpenbookCreateMarket args accounts] => Some (args, accounts)
  | _ => None
  end.


(** The keypairs the generator hands out from a state on. *)
Definition keypairsFrom (st : State) (count : nat) : list Keypair :=
  map (fun id => {| kp_id := id |}) (seq (nextKeypair st) count).


(** A world in which the blockhash query is rejected. *)
Definition hookBlockhashRejected : Hook :=
  {| provider := provider (Demo.hook None);
     wallet := wallet (Demo.hook None);
     connection :=
       Some {| getLatestBlockhash := fun _ => None;
               getMinimumBalanceForRentExemption :=
                 getMinimumBalanceForRentExemption Demo.conn;
               sendRawTransaction := sendRawTransaction Demo.conn |};
     initializeVault := initializeVault (Demo.hook None);
     tokens := tokens (Demo.hook None);
     daoState := None |}.

(** How one market of a run is tied to its TWAP market. *)
Definition twapLinked (h : Hook) (payer metaMint usdcMint : PublicKey)
  (marketKP : Keypair) (marketIxs : list Instruction) (twapIx : Instruction)
  : Prop :=
  exists args accounts,
    createMarketOf marketIxs = Some (args, accounts)
    /\ cm_market accounts = publicKey marketKP
    /\ cm_openOrdersAdmin accounts = Some (twapMarketAddress h marketKP)
    /\ cm_closeMarketAdmin accounts = Some (twapMarketAddress h marketKP)
    /\ cm_consumeEventsAdmin accounts = None
    /\ cm_oracleA accounts = None /\ cm_oracleB accounts = None
    /\ cm_collectFeeAdmin accounts = payer
    /\ cm_baseMint accounts = metaMint /\ cm_quoteMint accounts = usdcMint
    /\ twapIx = TwapCreateTwapMarket 1000 (publicKey marketKP)
                  (twapMarketAddress h marketKP) payer.

(** * Theorems *)

(** ** Vault nonces *)

Lemma nonce_low_bits (r : VaultRole) (n : BN.t) :
  n < 2 ^ 62 -> N.land (vaultNonce r n) (N.ones 62) = n.
Proof.
  intros Hn.
  assert (Hlow : N.land n (N.ones 62) = n)
    by (rewrite N.land_ones; apply N.mod_small; exact Hn).
  destruct r; cbn [vaultNonce]; unfold basePassNonce, quotePassNonce,
    baseFailNonce, quoteFailNonce, BN.or, BN.shln; try exact Hlow;
    rewrite N.land_lor_distr_l, Hlow;
    match goal with
    | |- N.lor n ?flag = n =>
        replace flag with 0 by (vm_compute; reflexivity)
    end; apply N.lor_0_r.
Qed.







(** ** Running the callback symbolically *)

Ltac exec :=
  cbv [bind await ret throw Keypair_generate rpcGetLatestBlockhash modifyTx newTx
       setFeePayer setRecentBlockhash sign walletSignAll sendAll first
       createOpenbookMarket createProgramAccount callInitializeVault
       initializeDaoBody upd TxVar_beq push value state events nextKeypair
       blockhashQueries store pa_signers pa_tx om_signers om_instructions
       openbook program_provider programId
       instructions feePayer recentBlockhash signers Transaction_add
       newTransaction];
  cbn [app map combine flat_map itemInstructions instructions].

(** Names the parts of the vault results at hand. *)
Ltac open_vaults :=
  repeat match goal with
         | v : VaultResult |- _ => destruct v as [[? ? ? ?] ?]
         end.

(** Settles the answer of the next awaited call. *)
Ltac oracle :=
  match goal with
  | |- context [match ?x with Some _ => _ | None => _ end] =>
      destruct x eqn:?
  end; open_vaults; exec.

(** Opens [initializeDao h st]: the guard first, [tac] closing the runs it
    stops, then the body up to its first awaited call. *)
Ltac enter h st tac :=
  unfold initializeDao;
  destruct (metaPublicKey h) as [metaMint |] eqn:Hmeta; [| tac];
  destruct (usdcPublicKey h) as [usdcMint |] eqn:Husdc; [| tac];
  destruct (walletPublicKey h) as [walletKey |] eqn:Hwallet; [| tac];
  destruct (walletSignAllTransactions h) as [signAll |] eqn:HsignAll; [| tac];
  destruct (connection h) as [conn |] eqn:Hconn; [| tac];
  destruct st as [nextKp queries sto];
  exec.

Lemma events_bind {A B} (m : M A) (k : A -> M B) (s : State) :
  exists rest, events (bind m k s) = (events (m s) ++ rest)%list.
Proof.
  unfold bind. destruct (m s) as [[a |] s1 e1].
  - destruct (k a s1) as [b s2 e2]. now exists e2.
  - exists []. cbn [events]. now rewrite app_nil_r.
Qed.

Section Traces.
Variable f : Transaction -> Event.
Hypothesis f_send : forall tx, exists b, f tx = EvSendRawTransaction tx b.

Lemma vaultNonces_sends l : vaultNonces (map f l) = [].
Proof.
  induction l as [| tx l IH]; [reflexivity |].
  cbn [map]. destruct (f_send tx) as [b ->]. exact IH.
Qed.

Lemma walletBatches_sends l : walletBatches (map f l) = [].
Proof.
  induction l as [| tx l IH]; [reflexivity |].
  cbn [map]. destruct (f_send tx) as [b ->]. exact IH.
Qed.

Lemma blockhashFetches_sends l : blockhashFetches (map f l) = [].
Proof.
  induction l as [| tx l IH]; [reflexivity |].
  cbn [map]. destruct (f_send tx) as [b ->]. exact IH.
Qed.

Lemma rentQueries_sends l : rentQueries (map f l) = [].
Proof.
  induction l as [| tx l IH]; [reflexivity |].
  cbn [map]. destruct (f_send tx) as [b ->]. exact IH.
Qed.

Lemma sentTransactions_sends l : sentTransactions (map f l) = l.
Proof.
  induction l as [| tx l IH]; [reflexivity |].
  cbn [map]. destruct (f_send tx) as [b ->].
  cbn [sentTransactions flat_map app]. f_equal. exact IH.
Qed.

Lemma ordered_sends fee hash signed asked l :
  ordered fee hash signed asked (map f l) = true.
Proof.
  induction l as [| tx l IH]; [reflexivity |].
  cbn [map]. destruct (f_send tx) as [b ->]. exact IH.
Qed.
End Traces.

Lemma send_is_send (tx : Transaction) :
  exists b, (fun tx => EvSendRawTransaction tx true) tx = EvSendRawTransaction tx b.
Proof. now exists true. Qed.

(** The nonces handed to [initializeVault] in a run are the four nonce
    expressions in source order, cut short when a call is rejected; a run
    that gets as far as the blockhash has made all four calls. *)
Lemma vaultNonces_run (h : Hook) (st : State) :
  let evs := events (initializeDao h st) in
  (exists k, vaultNonces evs = firstn k (allNonces (baseNonce h)))
  /\ (blockhashFetches evs <> [] -> vaultNonces evs = allNonces (baseNonce h)).
Proof.
  enter h st ltac:(split; [exists 0%nat; reflexivity | intros H; now contradiction H]).
  oracle; [| split; [exists 1%nat; reflexivity | intros H; now contradiction H]].
  oracle; [| split; [exists 2%nat; reflexivity | intros H; now contradiction H]].
  oracle; [| split; [exists 3%nat; reflexivity | intros H; now contradiction H]].
  oracle; [| split; [exists 4%nat; reflexivity | intros H; now contradiction H]].
  oracle; [| split; [exists 4%nat; reflexivity | intros H; now contradiction H]].
  oracle; [| split; [exists 4%nat; reflexivity | intros H; now contradiction H]].
  oracle; [| split; [exists 4%nat; reflexivity | reflexivity]].
  oracle; [| split; [exists 4%nat; reflexivity | reflexivity]].
  cbn [vaultNonces flat_map app].
  rewrite (vaultNonces_sends _ send_is_send).
  split; [exists 4%nat; reflexivity | reflexivity].
Qed.

(** C3: with a base nonce of 0 the four nonce expressions evaluate to
    0, 2^63, 2^62 and 3 * 2^62 (base-pass, quote-pass, base-fail,
    quote-fail); these are the nonces [initializeDao] hands to
    [initializeVault], in call order, and all four of them once the run is
    past the vault calls. *)
Theorem vault_nonces_at_zero (h : Hook) (st : State) :
  baseNonce h = 0 ->
  let evs := events (initializeDao h st) in
  (vaultNonce BasePass (baseNonce h) = 0
   /\ vaultNonce QuotePass (baseNonce h) = 2 ^ 63
   /\ vaultNonce BaseFail (baseNonce h) = 2 ^ 62
   /\ vaultNonce QuoteFail (baseNonce h) = 3 * 2 ^ 62)
  /\ (exists k, vaultNonces evs = firstn k [0; 2 ^ 63; 2 ^ 62; 3 * 2 ^ 62])
  /\ (blockhashFetches evs <> [] ->
      vaultNonces evs = [0; 2 ^ 63; 2 ^ 62; 3 * 2 ^ 62]).
Proof.
  intros Hbase evs.
  destruct (vaultNonces_run h st) as [Hprefix Hfull].
  fold evs in Hprefix, Hfull.
  rewrite Hbase in *.
  change (allNonces 0) with [0; 2 ^ 63; 2 ^ 62; 3 * 2 ^ 62] in *.
  repeat split; assumption.
Qed.

Lemma vault_nonces_at_zero_witness :
  baseNonce (Demo.hook (Some 0)) = 0
  /\ vaultNonces (events (initializeDao (Demo.hook (Some 0)) Demo.start))
     = [0; 2 ^ 63; 2 ^ 62; 3 * 2 ^ 62].
Proof.
  split; [reflexivity |].
  apply (vault_nonces_at_zero (Demo.hook (Some 0)) Demo.start); [reflexivity |].
  vm_compute. discriminate.
Defined.

(** ** The guard *)

(** C5: when the wallet key, the wallet's [signAllTransactions], one of the
    two mints or the connection is missing, [initializeDao] returns at once:
    no operation of any kind is performed and the state is untouched. *)
Theorem initializeDao_missing_precondition (h : Hook) (st : State) :
  metaPublicKey h = None \/ usdcPublicKey h = None \/ walletPublicKey h = None
  \/ walletSignAllTransactions h = None \/ connection h = None ->
  initializeDao h st = {| value := Some tt; state := st; events := [] |}.
Proof.
  intros H. unfold initializeDao.
  destruct (metaPublicKey h); [| reflexivity].
  destruct (usdcPublicKey h); [| reflexivity].
  destruct (walletPublicKey h); [| reflexivity].
  destruct (walletSignAllTransactions h); [| reflexivity].
  destruct (connection h); [| reflexivity].
  destruct H as [H | [H | [H | [H | H]]]]; discriminate H.
Qed.

Lemma initializeDao_missing_precondition_witness :
  walletSignAllTransactions hookWithoutSignAll = None
  /\ initializeDao hookWithoutSignAll Demo.start
     = {| value := Some tt; state := Demo.start; events := [] |}.
Proof.
  split; [reflexivity |].
  apply (initializeDao_missing_precondition hookWithoutSignAll Demo.start).
  right; right; right; left. reflexivity.
Defined.

(** The guard is exactly these five conditions: with all of them met the
    callback begins with the first vault call. *)
Lemma initializeDao_guard_passed (h : Hook) (st : State) :
  metaPublicKey h <> None -> usdcPublicKey h <> None ->
  walletPublicKey h <> None -> walletSignAllTransactions h <> None ->
  connection h <> None ->
  exists mint rest,
    events (initializeDao h st)
    = EvInitializeVault daoTreasury mint (basePassNonce (baseNonce h)) :: rest.
Proof.
  intros H1 H2 H3 H4 H5. unfold initializeDao.
  destruct (metaPublicKey h) as [metaMint |]; [| congruence].
  destruct (usdcPublicKey h) as [usdcMint |]; [| congruence].
  destruct (walletPublicKey h) as [walletKey |]; [| congruence].
  destruct (walletSignAllTransactions h) as [signAll |]; [| congruence].
  destruct (connection h) as [conn |]; [| congruence].
  unfold initializeDaoBody.
  match goal with
  | |- context [bind ?m ?k st] => destruct (events_bind m k st) as [rest ->]
  end.
  exists metaMint, rest. reflexivity.
Qed.

(** ** The React state of the hook *)

Lemma daoEffect_never_fetches (fetch : PublicKey -> option DaoState) (h : Hook) :
  daoEffect fetch h = h.
Proof. reflexivity. Qed.

(** C10: the effect fetches only when [dao] is falsy, and [dao] always
    holds an address; so in every state the hook reaches the cached Dao
    state is still empty, whatever the chain would answer, the effect leaves
    the hook as it is, and the base nonce of [initializeDao] is 0: the
    nonces it hands to [initializeVault] are those built on 0. *)
Theorem daoState_never_fetched (h : Hook) :
  reachable h ->
  daoState h = None
  /\ (forall fetch, daoEffect fetch h = h)
  /\ baseNonce h = 0
  /\ forall st,
       exists k, vaultNonces (events (initializeDao h st))
                 = firstn k [0; 2 ^ 63; 2 ^ 62; 3 * 2 ^ 62].
Proof.
  intros Hreach.
  assert (Hnone : daoState h = None).
  { induction Hreach as [h Hmount | h fetch _ IH | h h' _ IH Hsame].
    - exact Hmount.
    - rewrite daoEffect_never_fetches. exact IH.
    - rewrite Hsame. exact IH. }
  assert (Hbase : baseNonce h = 0) by (unfold baseNonce; now rewrite Hnone).
  split; [exact Hnone |].
  split; [intros fetch; apply daoEffect_never_fetches |].
  split; [exact Hbase |].
  intros st. destruct (vaultNonces_run h st) as [Hprefix _].
  rewrite Hbase in Hprefix. exact Hprefix.
Qed.

Lemma daoState_never_fetched_witness :
  reachable (daoEffect sevenProposals (Demo.hook None))
  /\ baseNonce (daoEffect sevenProposals (Demo.hook None)) = 0.
Proof.
  assert (R : reachable (daoEffect sevenProposals (Demo.hook None)))
    by (apply reach_effect, reach_mount; reflexivity).
  split; [exact R |].
  apply (daoState_never_fetched _ R).
Defined.

(** Were the state ever filled, the base nonce would follow the counter. *)
Example baseNonce_follows_counter : baseNonce (Demo.hook (Some 7)) = 7.
Proof. reflexivity. Qed.

Example fetchState_would_store :
  daoState (fetchState sevenProposals (Demo.hook None))
  = Some {| proposalCount := 7 |}.
Proof. reflexivity. Qed.

(** ** Order-book accounts *)

Section OrderBookAccounts.
Variable program : Program.
Variables creator baseMint quoteMint : PublicKey.
Variable name : string.
Variables quoteLotSize baseLotSize makerFee takerFee timeExpiry : BN.t.
Variables oracleA oracleB openOrdersAdmin consumeEventsAdmin closeMarketAdmin
  : option PublicKey.
Variable oracleConfigParams : option OracleConfigParams.
Variable market : Keypair.
Variable collectFeeAdmin : option PublicKey.

Let rent (size : N) : option N :=
  getMinimumBalanceForRentExemption
    (provider_connection (program_provider program)) size.

Lemma createProgramAccount_run (authority : PublicKey) (size lamports : N)
  (st : State) :
  rent size = Some lamports ->
  let address := {| kp_id := nextKeypair st |} in
  createProgramAccount program authority size st
  = {| value :=
         Some {| pa_tx :=
                   {| instructions :=
                        [SystemCreateAccount authority (publicKey address)
                           lamports size (programId program)];
                      feePayer := None; recentBlockhash := None;
                      signers := [] |};
                 pa_signers := [address] |};
       state := {| nextKeypair := S (nextKeypair st);
                   blockhashQueries := blockhashQueries st;
                   store := store st |};
       events := [EvGetMinimumBalanceForRentExemption size;
                  EvKeypairGenerate address] |}.
Proof.
  intros Hrent address. unfold rent in Hrent.
  unfold createProgramAccount, bind, await, Keypair_generate, ret.
  rewrite Hrent. reflexivity.
Qed.

Lemma createProgramAccount_rejected (authority : PublicKey) (size : N)
  (st : State) :
  rent size = None ->
  createProgramAccount program authority size st
  = {| value := None; state := st;
       events := [EvGetMinimumBalanceForRentExemption size] |}.
Proof.
  intros Hrent. unfold rent in Hrent.
  unfold createProgramAccount, bind, await.
  rewrite Hrent. reflexivity.
Qed.

(** C9: [createProgramAccount] asks the rent-exempt minimum for the size
    it is given, takes a newly generated keypair as the address and emits
    one create-account instruction paid by the authority it is given;
    [createOpenbookMarket] calls it with 90952 bytes for the bids, 90952
    bytes for the asks and 91288 bytes for the event heap, always with the
    market's creator as authority, and the market it creates uses the
    three new addresses. *)
Theorem order_book_accounts_provisioned (lb le : N) (st : State) :
  rent BooksideSpace = Some lb ->
  rent EventHeapSpace = Some le ->
  let bids := {| kp_id := nextKeypair st |} in
  let asks := {| kp_id := S (nextKeypair st) |} in
  let eventHeap := {| kp_id := S (S (nextKeypair st)) |} in
  let r := createOpenbookMarket program creator baseMint quoteMint name
             quoteLotSize baseLotSize makerFee takerFee timeExpiry
             oracleA oracleB openOrdersAdmin consumeEventsAdmin
             closeMarketAdmin oracleConfigParams (Some market)
             collectFeeAdmin st in
  (BooksideSpace = 90952 /\ EventHeapSpace = 91288)
  /\ (forall authority size lamports s,
        rent size = Some lamports ->
        value (createProgramAccount program authority size s)
        = Some {| pa_tx :=
                    Transaction_add newTransaction
                      [ItemIx (SystemCreateAccount authority
                                 (PkKeypair (nextKeypair s)) lamports size
                                 (programId program))];
                  pa_signers := [{| kp_id := nextKeypair s |}] |}
        /\ events (createProgramAccount program authority size s)
           = [EvGetMinimumBalanceForRentExemption size;
              EvKeypairGenerate {| kp_id := nextKeypair s |}])
  /\ events r
     = [EvGetMinimumBalanceForRentExemption 90952; EvKeypairGenerate bids;
        EvGetMinimumBalanceForRentExemption 90952; EvKeypairGenerate asks;
        EvGetMinimumBalanceForRentExemption 91288; EvKeypairGenerate eventHeap]
  /\ rentQueries (events r) = [90952; 90952; 91288]
  /\ exists m args accounts,
       value r = Some m
       /\ om_signers m = [bids; asks; eventHeap]
       /\ flat_map itemInstructions (om_instructions m)
          = [SystemCreateAccount creator (publicKey bids) lb 90952
               (programId program);
             SystemCreateAccount creator (publicKey asks) lb 90952
               (programId program);
             SystemCreateAccount creator (publicKey eventHeap) le 91288
               (programId program);
             OpenbookCreateMarket args accounts]
       /\ cm_bids accounts = publicKey bids
       /\ cm_asks accounts = publicKey asks
       /\ cm_eventHeap accounts = publicKey eventHeap.
Proof.
  intros Hb He bids asks eventHeap r.
  split; [split; reflexivity |].
  split.
  { intros authority size lamports s Hrent.
    rewrite (createProgramAccount_run authority size lamports s Hrent).
    split; reflexivity. }
  subst r. unfold rent in Hb, He.
  cbv [createOpenbookMarket createProgramAccount bind await ret throw first
       Keypair_generate pa_signers pa_tx value state events nextKeypair
       blockhashQueries store].
  rewrite Hb.
  cbv [createOpenbookMarket createProgramAccount bind await ret throw first
       Keypair_generate pa_signers pa_tx value state events nextKeypair
       blockhashQueries store].
  rewrite He.
  cbv [createOpenbookMarket createProgramAccount bind await ret throw first
       Keypair_generate pa_signers pa_tx value state events nextKeypair
       blockhashQueries store].
  cbn [app].
  destruct st as [nextKp queries sto]. subst bids asks eventHeap.
  cbn [nextKeypair].
  split; [reflexivity |].
  split; [reflexivity |].
  eexists; eexists; eexists.
  split; [reflexivity |].
  split; [reflexivity |].
  split; [reflexivity |].
  split; [reflexivity |].
  split; reflexivity.
Qed.
End OrderBookAccounts.

Lemma order_book_accounts_provisioned_witness :
  getMinimumBalanceForRentExemption Demo.conn BooksideSpace = Some 636664
  /\ getMinimumBalanceForRentExemption Demo.conn EventHeapSpace = Some 639016
  /\ events (createOpenbookMarket demoProgram Demo.walletKey Demo.metaMint
               Demo.usdcMint "Pass-Market" 100 1000000000 0 0 0
               None None None None None None (Some {| kp_id := 0 |}) None
               {| nextKeypair := 1; blockhashQueries := 0;
                  store := fun _ => newTransaction |})
     = [EvGetMinimumBalanceForRentExemption 90952;
        EvKeypairGenerate {| kp_id := 1 |};
        EvGetMinimumBalanceForRentExemption 90952;
        EvKeypairGenerate {| kp_id := 2 |};
        EvGetMinimumBalanceForRentExemption 91288;
        EvKeypairGenerate {| kp_id := 3 |}].
Proof.
  split; [reflexivity |]. split; [reflexivity |].
  apply (order_book_accounts_provisioned demoProgram Demo.walletKey Demo.metaMint
           Demo.usdcMint "Pass-Market" 100 1000000000 0 0 0
           None None None None None None {| kp_id := 0 |} None
           636664 639016
           {| nextKeypair := 1; blockhashQueries := 0;
              store := fun _ => newTransaction |});
    reflexivity.
Defined.

(** ** The batch *)

Ltac sends :=
  cbn [vaultNonces walletBatches blockhashFetches sentTransactions rentQueries
       flat_map app];
  rewrite ?(vaultNonces_sends _ send_is_send),
          ?(walletBatches_sends _ send_is_send),
          ?(blockhashFetches_sends _ send_is_send),
          ?(rentQueries_sends _ send_is_send),
          ?(sentTransactions_sends _ send_is_send).

(** Membership in an explicit batch, one transaction at a time. *)
Ltac each_of H :=
  repeat (destruct H as [H | H]; [injection H as <- <- |]); [.. | destruct H].

(** C2: a run either stops before the batching step, with no blockhash
    fetched and nothing handed to the wallet, or fetches the blockhash
    exactly once, as the answer of the connection to that one query; when
    it does, all six transactions of the run carry the fetched value, and so
    does every transaction of a batch handed to the wallet. *)
Theorem blockhash_fetched_once (h : Hook) (st : State) :
  (blockhashFetches (events (initializeDao h st)) = []
   /\ walletBatches (events (initializeDao h st)) = [])
  \/ exists answer,
       blockhashFetches (events (initializeDao h st)) = [answer]
       /\ option_map (fun c => getLatestBlockhash c (blockhashQueries st))
                     (connection h) = Some answer
       /\ (forall bh, answer = Some bh ->
           forall v, recentBlockhash (finalTx h st v) = Some bh)
       /\ (forall batch, In batch (walletBatches (events (initializeDao h st))) ->
           exists bh, answer = Some bh
                      /\ forall v t, In (v, t) batch ->
                                     recentBlockhash t = Some bh).
Proof.
  unfold finalTx.
  enter h st ltac:(left; split; reflexivity).
  cbn [option_map].
  do 6 (oracle; [| left; split; reflexivity]).
  oracle.
  2:{ right. exists None.
      split; [reflexivity |]. split; [reflexivity |].
      split; [intros bh Hbh; discriminate Hbh |].
      intros batch []. }
  right. exists (Some b).
  oracle; sends.
  - split; [reflexivity |]. split; [reflexivity |]. split.
    + intros bh [= <-] w. destruct w; reflexivity.
    + intros batch [<- | []]. exists b. split; [reflexivity |].
      intros w t Hin. each_of Hin; reflexivity.
  - split; [reflexivity |]. split; [reflexivity |]. split.
    + intros bh [= <-] w. destruct w; reflexivity.
    + intros batch [<- | []]. exists b. split; [reflexivity |].
      intros w t Hin. each_of Hin; reflexivity.
Qed.

(** What the wallet is handed, and what is sent afterwards: the batch is
    made of the two market transactions, the two vault transactions and the
    DAO transaction, in the order they were pushed, and the transactions
    sent are the ones the wallet returned. *)
Lemma wallet_batch_and_sends (h : Hook) (st : State) :
  let evs := events (initializeDao h st) in
  forall batch, In batch (walletBatches evs) ->
    walletBatches evs = [batch]
    /\ map fst batch
       = [passMarketTx; failMarketTx; baseVaultTx; quoteVaultTx; daoTx]
    /\ sentTransactions evs
       = match optBind (walletSignAllTransactions h)
                       (fun signAll => signAll (map snd batch)) with
         | Some signedTxs => signedTxs
         | None => []
         end.
Proof.
  enter h st ltac:(intros batch []).
  cbn [optBind].
  do 7 (oracle; [| intros batch []]).
  oracle; sends.
  - intros batch [<- | []]. cbn [map fst snd].
    split; [reflexivity |]. split; [reflexivity |].
    match goal with H : signAll _ = Some _ |- _ => now rewrite H end.
  - intros batch [<- | []]. cbn [map fst snd].
    split; [reflexivity |]. split; [reflexivity |].
    match goal with H : signAll _ = None |- _ => now rewrite H end.
Qed.

(** C1, on a run in which every precondition holds and every awaited call
    is answered: the callback completes, the TWAP transaction has been built
    with its two instructions, its fee payer and its blockhash, and yet the
    one batch handed to the wallet holds only the two market transactions,
    the two vault transactions and the DAO transaction; five transactions
    are sent and the TWAP transaction is not among them. *)
Theorem twapsTx_left_out_of_batch :
  value demoRun = Some tt
  /\ List.length (instructions (store (state demoRun) twapsTx)) = 2%nat
  /\ feePayer (store (state demoRun) twapsTx) = Some Demo.walletKey
  /\ recentBlockhash (store (state demoRun) twapsTx) = Some "hash0"
  /\ map (map fst) (walletBatches (events demoRun))
     = [[passMarketTx; failMarketTx; baseVaultTx; quoteVaultTx; daoTx]]
  /\ ~ In twapsTx (List.concat (map (map fst) (walletBatches (events demoRun))))
  /\ ~ In (store (state demoRun) twapsTx)
          (List.concat (map (map snd) (walletBatches (events demoRun))))
  /\ List.length (sentTransactions (events demoRun)) = 5%nat
  /\ ~ In (store (state demoRun) twapsTx) (sentTransactions (events demoRun)).
Proof.
  vm_compute.
  repeat (split; [reflexivity |]).
  split; [| split; [| split; [reflexivity |]]];
    intros H;
    repeat (destruct H as [H | H]; [discriminate H |]);
    exact H.
Qed.

(** ** The order of operations *)

Lemma TxVar_beq_true (v w : TxVar) : TxVar_beq v w = true -> v = w.
Proof. destruct v, w; (reflexivity || discriminate). Qed.

Lemma mem_In (v : TxVar) (vs : list TxVar) : mem v vs = true -> In v vs.
Proof.
  unfold mem. intros H. apply existsb_exists in H as (w & Hin & Hw).
  apply TxVar_beq_true in Hw. now subst w.
Qed.

(** Once the wallet has been asked, the checker accepts no more signing
    with keypairs. *)
Lemma ordered_asked (evs : list Event) :
  forall fee hash signed,
    ordered fee hash signed true evs = true ->
    forall v ks, ~ In (EvSign v ks) evs.
Proof.
  induction evs as [| a evs IH]; intros fee hash signed Hord v ks Hin;
    [exact Hin |].
  destruct Hin as [-> | Hin].
  - cbn [ordered negb] in Hord. rewrite andb_false_r in Hord. discriminate Hord.
  - destruct a; cbn [ordered] in Hord;
      repeat (apply andb_prop in Hord as [Hord ?]);
      try (eapply IH; eassumption).
Qed.

Lemma feePayerAssigned_cons v a evs :
  feePayerAssigned v evs -> feePayerAssigned v (a :: evs).
Proof. intros [pk H]. exists pk. now right. Qed.

Lemma blockhashAssigned_cons v a evs :
  blockhashAssigned v evs -> blockhashAssigned v (a :: evs).
Proof. intros [bh H]. exists bh. now right. Qed.

Lemma partiallySignedBy_cons v a evs :
  partiallySignedBy v evs -> partiallySignedBy v (a :: evs).
Proof. intros [ks H]. exists ks. now right. Qed.

(** Carries a fact about the accumulators after the first event of a trace
    over to the accumulators before it. *)
Ltac carry H :=
  destruct H as [H | H];
  [ first [ left; exact H
          | destruct H as [<- | H];
            [ right; eexists; left; reflexivity | left; exact H ] ]
  | right;
    first [ apply feePayerAssigned_cons | apply blockhashAssigned_cons
          | apply partiallySignedBy_cons ];
    exact H ].

Lemma ordered_sound (evs : list Event) :
  forall fee hash signed asked,
    ordered fee hash signed asked evs = true ->
    orderRespectedFrom fee hash signed asked evs.
Proof.
  induction evs as [| a evs IH]; intros fee hash signed asked Hord evs1 e evs2 Heq.
  { destruct evs1; discriminate Heq. }
  destruct evs1 as [| a' evs1]; cbn [app] in Heq; injection Heq as -> Hrest.
  - (* the event under consideration is the first one *)
    subst evs. split.
    + intros v ks ->. cbn [ordered] in Hord.
      repeat (apply andb_prop in Hord as [Hord ?]).
      repeat split.
      * left. now apply mem_In.
      * left. now apply mem_In.
      * now destruct asked.
      * intros l [].
    + intros l ->. cbn [ordered] in Hord.
      repeat (apply andb_prop in Hord as [Hord ?]).
      split; [| split].
      * intros v t Hin.
        rewrite forallb_forall in Hord. specialize (Hord _ Hin).
        cbn [fst] in Hord. apply andb_prop in Hord as [Hf Hh].
        split; left; now apply mem_In.
      * intros v Hin. left. apply mem_In.
        match goal with
        | H : forallb _ partiallySigned = true |- _ =>
            rewrite forallb_forall in H; now apply H
        end.
      * eapply ordered_asked; eassumption.
  - (* it comes later: the first event moves into the accumulators *)
    destruct a'; cbn [ordered] in Hord;
      repeat (apply andb_prop in Hord as [Hord ?]);
      match goal with
      | H : ordered ?f ?h ?s ?k evs = true |- _ =>
          destruct (IH f h s k H evs1 e evs2 Hrest) as [Hsign Hask]
      end;
      (split;
       [ intros v' ks' He;
         destruct (Hsign v' ks' He) as (Hf & Hh & Hk & Hno);
         first
           [ discriminate Hk
           | split; [carry Hf | split; [carry Hh | split; [exact Hk |]]];
             intros l' [Hl | Hl]; [discriminate Hl | exact (Hno l' Hl)] ]
       | intros l' He;
         destruct (Hask l' He) as (Hbatch & Hdone & Hafter);
         split; [| split; [| exact Hafter]];
         [ intros v' t' Hin; destruct (Hbatch v' t' Hin) as [Hf Hh];
           split; [carry Hf | carry Hh]
         | intros v' Hin; specialize (Hdone v' Hin); carry Hdone ] ]).
Qed.

Lemma ordered_respected (evs : list Event) :
  ordered [] [] [] false evs = true -> orderRespected evs.
Proof.
  intros Hord evs1 e evs2 Heq.
  destruct (ordered_sound evs [] [] [] false Hord evs1 e evs2 Heq)
    as [Hsign Hask].
  split.
  - intros v ks He. destruct (Hsign v ks He) as ([[] | Hf] & [[] | Hh] & _ & Hno).
    now repeat split.
  - intros l He. destruct (Hask l He) as (Hbatch & Hdone & Hafter).
    split; [| split; [| exact Hafter]].
    + intros v t Hin. destruct (Hbatch v t Hin) as [[[] | Hf] [[] | Hh]].
      now split.
    + intros v Hin. now destruct (Hdone v Hin) as [[] | Hs].
Qed.

Lemma initializeDao_ordered (h : Hook) (st : State) :
  ordered [] [] [] false (events (initializeDao h st)) = true.
Proof.
  enter h st ltac:(reflexivity).
  do 7 (oracle; [| reflexivity]).
  oracle; [| reflexivity].
  cbn [ordered mem existsb TxVar_beq forallb fst andb negb orb partiallySigned].
  apply (ordered_sends _ send_is_send).
Qed.

(** C6: at every point of every run, a transaction is signed with fresh
    keypairs only once its fee payer and its blockhash have been assigned
    and before the wallet is asked; and when the batch is handed to the
    wallet, every transaction in it has its fee payer and blockhash
    assigned, the four partial signings have been made, and none follows. *)
Theorem signing_order (h : Hook) (st : State) (evs1 evs2 : list Event) (e : Event) :
  events (initializeDao h st) = (evs1 ++ e :: evs2)%list ->
  (forall v ks, e = EvSign v ks ->
     feePayerAssigned v evs1 /\ blockhashAssigned v evs1
     /\ forall l, ~ In (EvSignAllTransactions l) evs1)
  /\ (forall l, e = EvSignAllTransactions l ->
        (forall v t, In (v, t) l ->
           feePayerAssigned v evs1 /\ blockhashAssigned v evs1)
        /\ (forall v, In v partiallySigned -> partiallySignedBy v evs1)
        /\ (forall v ks, ~ In (EvSign v ks) evs2)).
Proof.
  intros Heq.
  exact (ordered_respected _ (initializeDao_ordered h st) evs1 e evs2 Heq).
Qed.

Lemma signing_order_witness :
  events (initializeDao (Demo.hook None) Demo.start)
  = (demoBefore ++ EvSignAllTransactions demoBatch :: demoAfter)%list
  /\ (forall v, In v partiallySigned -> partiallySignedBy v demoBefore)
  /\ (forall v ks, ~ In (EvSign v ks) demoAfter).
Proof.
  assert (Hsplit : events (initializeDao (Demo.hook None) Demo.start)
                   = (demoBefore ++ EvSignAllTransactions demoBatch
                        :: demoAfter)%list)
    by (vm_compute; reflexivity).
  split; [exact Hsplit |].
  exact (proj2 (proj2 (signing_order (Demo.hook None) Demo.start
                         demoBefore demoAfter (EvSignAllTransactions demoBatch)
                         Hsplit)
                 demoBatch eq_refl)).
Defined.

(** ** Co-signing *)












(** ** Grouping *)

Ltac vault_group :=
  eexists; eexists;
  split; [eassumption |]; split; [eassumption |];
  cbn [vault_tx instructions]; now rewrite app_nil_r.

Ltac market_group :=
  do 8 eexists; split; [reflexivity |]; repeat split.

Ltac grouping :=
  intros _;
  match goal with
  | Hm : metaPublicKey _ = Some ?m, Hu : usdcPublicKey _ = Some ?u,
    Hw : walletPublicKey _ = Some ?w |- _ =>
      exists m, u, w
  end;
  split; [reflexivity |]; split; [reflexivity |]; split; [reflexivity |];
  split; [vault_group |]; split; [vault_group |];
  split; [market_group |]; split; [market_group |];
  split; [| reflexivity];
  eexists; eexists; split; [reflexivity |]; split; [reflexivity |];
  eexists; eexists; reflexivity.

(** C8: once a run has built its transactions, the six of them hold: the
    base-pass then the base-fail vault creation; the quote-pass then the
    quote-fail vault creation; for each order-book market its three account
    creations followed by its market creation; the two TWAP-market creations,
    for the pass market then the fail market; and the DAO initialization
    alone. *)
Theorem batching_groups (h : Hook) (st : State) :
  blockhashFetches (events (initializeDao h st)) <> [] ->
  let ixs v := instructions (finalTx h st v) in
  exists metaMint usdcMint walletKey,
    metaPublicKey h = Some metaMint
    /\ usdcPublicKey h = Some usdcMint
    /\ walletPublicKey h = Some walletKey
    /\ vaultCreationsOf h metaMint BasePass BaseFail (ixs baseVaultTx)
    /\ vaultCreationsOf h usdcMint QuotePass QuoteFail (ixs quoteVaultTx)
    /\ marketGroup walletKey "Pass-Market" (ixs passMarketTx)
    /\ marketGroup walletKey "fMETA/fUSDC" (ixs failMarketTx)
    /\ (exists passMarket failMarket,
          marketOf (ixs passMarketTx) = Some passMarket
          /\ marketOf (ixs failMarketTx) = Some failMarket
          /\ twapGroup walletKey passMarket failMarket (ixs twapsTx))
    /\ ixs daoTx = [AutocratInitializeDao dao metaMint usdcMint].
Proof.
  unfold finalTx.
  enter h st ltac:(intros H; now contradiction H).
  do 6 (oracle; [| intros H; now contradiction H]).
  oracle; [| grouping].
  oracle; sends; grouping.
Qed.

Lemma batching_groups_witness :
  blockhashFetches (events (initializeDao (Demo.hook None) Demo.start)) <> []
  /\ exists metaMint usdcMint,
       instructions (finalTx (Demo.hook None) Demo.start daoTx)
       = [AutocratInitializeDao dao metaMint usdcMint].
Proof.
  assert (H : blockhashFetches
                (events (initializeDao (Demo.hook None) Demo.start)) <> [])
    by (vm_compute; discriminate).
  split; [exact H |].
  destruct (batching_groups (Demo.hook None) Demo.start H)
    as (metaMint & usdcMint & _ & _ & _ & _ & _ & _ & _ & _ & _ & Hdao).
  exists metaMint, usdcMint. exact Hdao.
Defined.

(** * Further properties *)

(** ** Nonce arithmetic *)

Lemma nonce_flag_disjoint (r : VaultRole) (n : BN.t) :
  n < 2 ^ 62 -> N.land n (roleFlag r) = 0.
Proof.
  intros Hn.
  assert (Hlow : N.land n (N.ones 62) = n)
    by (rewrite N.land_ones; apply N.mod_small; exact Hn).
  rewrite <- Hlow, <- N.land_assoc.
  replace (N.land (N.ones 62) (roleFlag r)) with 0
    by (destruct r; vm_compute; reflexivity).
  apply N.land_0_r.
Qed.

Lemma nonce_or_flag (r : VaultRole) (n : BN.t) :
  vaultNonce r n = N.lor n (roleFlag r).
Proof.
  destruct r; unfold roleFlag; cbn [vaultNonce];
    unfold basePassNonce, quotePassNonce, baseFailNonce, quoteFailNonce,
      BN.or, BN.shln; [now rewrite N.lor_0_r | reflexivity ..].
Qed.

Lemma nonce_add_flag (r : VaultRole) (n : BN.t) :
  n < 2 ^ 62 -> vaultNonce r n = n + roleFlag r.
Proof.
  intros Hn. rewrite nonce_or_flag.
  pose proof (nonce_flag_disjoint r n Hn) as Hdisj.
  rewrite (N.add_nocarry_lxor _ _ Hdisj). symmetry.
  now apply N.lxor_lor.
Qed.

(** X1: below 2^62 a nonce determines both the role and the sequence
    number: two vaults share a nonce only if they have the same role in the
    same proposal. *)
Theorem vault_nonce_injective (r1 r2 : VaultRole) (n m : BN.t) :
  n < 2 ^ 62 -> m < 2 ^ 62 ->
  vaultNonce r1 n = vaultNonce r2 m ->
  r1 = r2 /\ n = m.
Proof.
  intros Hn Hm Heq.
  assert (Hnm : n = m).
  { rewrite <- (nonce_low_bits r1 n Hn), <- (nonce_low_bits r2 m Hm).
    now rewrite Heq. }
  split; [| exact Hnm]. subst m.
  rewrite (nonce_add_flag r1 n Hn), (nonce_add_flag r2 n Hn) in Heq.
  apply N.add_cancel_l in Heq.
  destruct r1, r2; try reflexivity; vm_compute in Heq; discriminate Heq.
Qed.

Lemma vault_nonce_injective_witness :
  vaultNonce BaseFail 9 = vaultNonce BaseFail 9 /\ (BaseFail = BaseFail /\ 9 = 9).
Proof.
  split; [reflexivity |].
  apply (vault_nonce_injective BaseFail BaseFail 9 9);
    [vm_compute; reflexivity | vm_compute; reflexivity | reflexivity].
Defined.

(** X2: below 2^62 the OR of the flag is an addition, so the four nonces of
    one proposal are the sequence number plus 0, 2^62, 2^63 and 3 * 2^62,
    in the strict order base-pass < base-fail < quote-pass < quote-fail. *)
Theorem vault_nonce_layout (n : BN.t) :
  n < 2 ^ 62 ->
  basePassNonce n = n
  /\ baseFailNonce n = n + 2 ^ 62
  /\ quotePassNonce n = n + 2 ^ 63
  /\ quoteFailNonce n = n + 3 * 2 ^ 62
  /\ basePassNonce n < baseFailNonce n
  /\ baseFailNonce n < quotePassNonce n
  /\ quotePassNonce n < quoteFailNonce n.
Proof.
  intros Hn.
  pose proof (nonce_add_flag BaseFail n Hn) as Hbf.
  pose proof (nonce_add_flag QuotePass n Hn) as Hqp.
  pose proof (nonce_add_flag QuoteFail n Hn) as Hqf.
  cbn [vaultNonce] in Hbf, Hqp, Hqf.
  change (roleFlag BaseFail) with (2 ^ 62) in Hbf.
  change (roleFlag QuotePass) with (2 ^ 63) in Hqp.
  change (roleFlag QuoteFail) with (3 * 2 ^ 62) in Hqf.
  rewrite Hbf, Hqp, Hqf. unfold basePassNonce.
  assert (E62 : 2 ^ 62 = 4611686018427387904) by reflexivity.
  assert (E63 : 2 ^ 63 = 9223372036854775808) by reflexivity.
  rewrite E62, E63 in *.
  repeat split; lia.
Qed.

Lemma vault_nonce_layout_witness :
  17 < 2 ^ 62 /\ quoteFailNonce 17 = 17 + 3 * 2 ^ 62.
Proof.
  split; [vm_compute; reflexivity |].
  apply (vault_nonce_layout 17). vm_compute. reflexivity.
Defined.

(** ** [createOpenbookMarket] *)

Ltac run_market :=
  cbv [createOpenbookMarket createProgramAccount bind await ret throw first
       Keypair_generate pa_signers pa_tx value state events nextKeypair
       blockhashQueries store om_signers om_instructions];
  cbn [app flat_map itemInstructions instructions Transaction_add newTransaction
       rentQueries].

Section OpenbookMarketCalls.
Variable program : Program.
Variables creator baseMint quoteMint : PublicKey.
Variable name : string.
Variables quoteLotSize baseLotSize makerFee takerFee timeExpiry : BN.t.
Variables oracleA oracleB openOrdersAdmin consumeEventsAdmin closeMarketAdmin
  : option PublicKey.
Variable oracleConfigParams : option OracleConfigParams.
Variable collectFeeAdmin : option PublicKey.

Let rentOf (size : N) : option N :=
  getMinimumBalanceForRentExemption
    (provider_connection (program_provider program)) size.

Let call (market : option Keypair) : M OpenbookMarket :=
  createOpenbookMarket program creator baseMint quoteMint name
    quoteLotSize baseLotSize makerFee takerFee timeExpiry
    oracleA oracleB openOrdersAdmin consumeEventsAdmin closeMarketAdmin
    oracleConfigParams market collectFeeAdmin.


(** X4: called without a market keypair, [createOpenbookMarket] generates
    one before the three accounts and creates the market at its address,
    but the signers it returns are the three account keypairs only: the
    generated market keypair is not among them. *)
Theorem createOpenbookMarket_default_market (lb le : N) (st : State) :
  rentOf BooksideSpace = Some lb ->
  rentOf EventHeapSpace = Some le ->
  let marketKP := {| kp_id := nextKeypair st |} in
  exists m args accounts,
    value (call None st) = Some m
    /\ generatedKeypairs (events (call None st)) = keypairsFrom st 4
    /\ createMarketOf (flat_map itemInstructions (om_instructions m))
       = Some (args, accounts)
    /\ cm_market accounts = publicKey marketKP
    /\ om_signers m = skipn 1 (keypairsFrom st 4)
    /\ ~ In marketKP (om_signers m).
Proof.
  intros Hb He marketKP. unfold call, rentOf in *.
  destruct st as [nextKp queries sto]. subst marketKP.
  run_market; rewrite Hb; run_market; rewrite He; run_market.
  cbv [keypairsFrom nextKeypair]. cbn [seq map skipn generatedKeypairs flat_map app].
  eexists; eexists; eexists.
  split; [reflexivity |]. split; [reflexivity |]. split; [reflexivity |].
  split; [reflexivity |]. split; [reflexivity |].
  intros [H | [H | [H | []]]]; injection H; lia.
Qed.

End OpenbookMarketCalls.

Lemma createOpenbookMarket_default_market_witness :
  getMinimumBalanceForRentExemption Demo.conn BooksideSpace = Some 636664
  /\ getMinimumBalanceForRentExemption Demo.conn EventHeapSpace = Some 639016
  /\ exists m args accounts,
       value (createOpenbookMarket demoProgram Demo.walletKey Demo.metaMint
                Demo.usdcMint "Pass-Market" 100 1000000000 0 0 0
                None None None None None None None None Demo.start) = Some m
       /\ generatedKeypairs
            (events (createOpenbookMarket demoProgram Demo.walletKey Demo.metaMint
                       Demo.usdcMint "Pass-Market" 100 1000000000 0 0 0
                       None None None None None None None None Demo.start))
          = keypairsFrom Demo.start 4
       /\ createMarketOf (flat_map itemInstructions (om_instructions m))
          = Some (args, accounts)
       /\ cm_market accounts = publicKey {| kp_id := nextKeypair Demo.start |}
       /\ om_signers m = skipn 1 (keypairsFrom Demo.start 4)
       /\ ~ In {| kp_id := nextKeypair Demo.start |} (om_signers m).
Proof.
  split; [reflexivity |]. split; [reflexivity |].
  apply (createOpenbookMarket_default_market demoProgram Demo.walletKey
           Demo.metaMint Demo.usdcMint "Pass-Market" 100 1000000000 0 0 0
           None None None None None None None 636664 639016 Demo.start);
    reflexivity.
Defined.


(** ** More on the runs of [initializeDao] *)

Section MoreTraces.
Variable f : Transaction -> Event.
Hypothesis f_send : forall tx, f tx = EvSendRawTransaction tx true.

Lemma vaultCalls_sends l : vaultCalls (map f l) = [].
Proof.
  induction l as [| tx l IH]; [reflexivity |].
  cbn [map]. rewrite f_send. exact IH.
Qed.

Lemma generatedKeypairs_sends l : generatedKeypairs (map f l) = [].
Proof.
  induction l as [| tx l IH]; [reflexivity |].
  cbn [map]. rewrite f_send. exact IH.
Qed.

Lemma signedVars_sends l : signedVars (map f l) = [].
Proof.
  induction l as [| tx l IH]; [reflexivity |].
  cbn [map]. rewrite f_send. exact IH.
Qed.

Lemma preflightSkipped_sends l : preflightSkipped (map f l) = true.
Proof.
  induction l as [| tx l IH]; [reflexivity |].
  cbn [map]. rewrite f_send. exact IH.
Qed.
End MoreTraces.

Ltac sends' :=
  sends;
  cbn [vaultCalls generatedKeypairs signedVars preflightSkipped forallb
       flat_map app andb];
  rewrite ?(vaultCalls_sends _ (fun tx => eq_refl)),
          ?(generatedKeypairs_sends _ (fun tx => eq_refl)),
          ?(signedVars_sends _ (fun tx => eq_refl)),
          ?(preflightSkipped_sends _ (fun tx => eq_refl)).

(** X6: the vault requests of a run are, in order, base-pass on the META
    mint, quote-pass on the USDC mint, base-fail on the META mint and
    quote-fail on the USDC mint, all with the treasury as authority; a
    rejected request ends the series, and a run that gets to the blockhash
    has made all four. *)
Theorem vault_calls_in_order (h : Hook) (st : State) :
  (exists k, vaultCalls (events (initializeDao h st))
             = firstn k (expectedVaultCalls h))
  /\ (blockhashFetches (events (initializeDao h st)) <> [] ->
      vaultCalls (events (initializeDao h st)) = expectedVaultCalls h
      /\ List.length (expectedVaultCalls h) = 4%nat).
Proof.
  unfold expectedVaultCalls.
  enter h st ltac:(split; [exists 0%nat; reflexivity | intros H; now contradiction H]).
  oracle; [| split; [exists 1%nat; reflexivity | intros H; now contradiction H]].
  oracle; [| split; [exists 2%nat; reflexivity | intros H; now contradiction H]].
  oracle; [| split; [exists 3%nat; reflexivity | intros H; now contradiction H]].
  oracle; [| split; [exists 4%nat; reflexivity | intros H; now contradiction H]].
  oracle; [| split; [exists 4%nat; reflexivity | intros H; now contradiction H]].
  oracle; [| split; [exists 4%nat; reflexivity | intros H; now contradiction H]].
  oracle; [| split; [exists 4%nat; reflexivity | intros _; split; reflexivity]].
  oracle; sends';
    (split; [exists 4%nat; reflexivity | intros _; split; reflexivity]).
Qed.


(** X8: the wallet is asked at most once in a run, and what it is handed
    is each transaction as the run leaves it, with the wallet's own key as
    fee payer: nothing changes a transaction once the wallet has seen it. *)
Theorem wallet_asked_once (h : Hook) (st : State) :
  (List.length (walletBatches (events (initializeDao h st))) <= 1)%nat
  /\ forall batch v t,
       In batch (walletBatches (events (initializeDao h st))) ->
       In (v, t) batch ->
       t = finalTx h st v /\ feePayer t = walletPublicKey h.
Proof.
  unfold finalTx.
  enter h st ltac:(split; [apply le_0_n | intros batch v t []]).
  do 7 (oracle; [| split; [apply le_0_n | intros batch v t []]]).
  oracle; sends';
    (split; [apply le_n |]);
    intros batch w t [<- | []] Hin; each_of Hin; split; reflexivity.
Qed.



(** X10: the rent queries of a run are those of the pass market then those
    of the fail market (bids, asks, event heap each time), cut short at the
    first rejection; a run never makes more than these six. *)
Theorem rent_queries_in_order (h : Hook) (st : State) :
  (exists k, rentQueries (events (initializeDao h st))
             = firstn k [BooksideSpace; BooksideSpace; EventHeapSpace;
                         BooksideSpace; BooksideSpace; EventHeapSpace])
  /\ (blockhashFetches (events (initializeDao h st)) <> [] ->
      rentQueries (events (initializeDao h st))
      = [90952; 90952; 91288; 90952; 90952; 91288]).
Proof.
  enter h st ltac:(split; [exists 0%nat; reflexivity | intros H; now contradiction H]).
  do 4 (oracle; [| split; [exists 0%nat; reflexivity | intros H; now contradiction H]]).
  oracle; [| split; [exists 1%nat; reflexivity | intros H; now contradiction H]].
  oracle; [| split; [exists 3%nat; reflexivity | intros H; now contradiction H]].
  oracle; [| split; [exists 6%nat; reflexivity | reflexivity]].
  oracle; sends'; (split; [exists 6%nat; reflexivity | reflexivity]).
Qed.

(** X11: in a run that has built its transactions, each order-book market
    names as open-orders and close-market admin the TWAP market derived from
    its own address, and the TWAP instruction of that market wraps that same
    market at that same derived address; the pass and fail markets trade the
    same two mints, have no oracle and no consume-events admin, pay their
    fees to the wallet, and are at different addresses. *)
Theorem markets_linked_to_twaps (h : Hook) (st : State) :
  blockhashFetches (events (initializeDao h st)) <> [] ->
  exists metaMint usdcMint walletKey passKP failKP passTwapIx failTwapIx,
    metaPublicKey h = Some metaMint
    /\ usdcPublicKey h = Some usdcMint
    /\ walletPublicKey h = Some walletKey
    /\ instructions (finalTx h st twapsTx) = [passTwapIx; failTwapIx]
    /\ twapLinked h walletKey metaMint usdcMint passKP
         (instructions (finalTx h st passMarketTx)) passTwapIx
    /\ twapLinked h walletKey metaMint usdcMint failKP
         (instructions (finalTx h st failMarketTx)) failTwapIx
    /\ publicKey passKP <> publicKey failKP
    /\ twapMarketAddress h passKP <> twapMarketAddress h failKP.
Proof.
  unfold finalTx.
  enter h st ltac:(intros H; now contradiction H).
  do 6 (oracle; [| intros H; now contradiction H]).
  oracle; [oracle; sends' |];
    intros _;
    exists metaMint, usdcMint, walletKey,
      {| kp_id := nextKp |}, {| kp_id := S (S (S (S nextKp))) |};
    eexists; eexists;
    (split; [reflexivity |]); (split; [reflexivity |]); (split; [reflexivity |]);
    (split; [reflexivity |]);
    (split; [eexists; eexists; repeat (split; [reflexivity |]); reflexivity |]);
    (split; [eexists; eexists; repeat (split; [reflexivity |]); reflexivity |]);
    (split; [intros H; injection H; lia |]);
    intros H; injection H; lia.
Qed.

Lemma markets_linked_to_twaps_witness :
  blockhashFetches (events (initializeDao (Demo.hook None) Demo.start)) <> []
  /\ exists passTwapIx failTwapIx,
       instructions (finalTx (Demo.hook None) Demo.start twapsTx)
       = [passTwapIx; failTwapIx].
Proof.
  assert (H : blockhashFetches
                (events (initializeDao (Demo.hook None) Demo.start)) <> [])
    by (vm_compute; discriminate).
  split; [exact H |].
  destruct (markets_linked_to_twaps (Demo.hook None) Demo.start H)
    as (_ & _ & _ & _ & _ & passTwapIx & failTwapIx & _ & _ & _ & Htw & _).
  exists passTwapIx, failTwapIx. exact Htw.
Defined.



(** X13: when the blockhash query is rejected, the six transactions have
    been built but none has a fee payer, a blockhash or a signature, the
    wallet is not asked, nothing is sent, and the callback fails. *)
Theorem blockhash_rejection (h : Hook) (st : State) :
  blockhashFetches (events (initializeDao h st)) = [None] ->
  value (initializeDao h st) = None
  /\ (forall v, feePayer (finalTx h st v) = None
                /\ recentBlockhash (finalTx h st v) = None
                /\ signers (finalTx h st v) = [])
  /\ signedVars (events (initializeDao h st)) = []
  /\ walletBatches (events (initializeDao h st)) = []
  /\ sentTransactions (events (initializeDao h st)) = [].
Proof.
  unfold finalTx.
  enter h st ltac:(intros H; discriminate H).
  do 6 (oracle; [| intros H; discriminate H]).
  oracle; [oracle; sends'; intros H; discriminate H |].
  intros _. split; [reflexivity |]. split; [| repeat split].
  intros v. destruct v; repeat split.
Qed.

Lemma blockhash_rejection_witness :
  blockhashFetches (events (initializeDao hookBlockhashRejected Demo.start))
  = [None]
  /\ value (initializeDao hookBlockhashRejected Demo.start) = None.
Proof.
  assert (H : blockhashFetches
                (events (initializeDao hookBlockhashRejected Demo.start))
              = [None]) by (vm_compute; reflexivity).
  split; [exact H |].
  apply (blockhash_rejection hookBlockhashRejected Demo.start H).
Defined.

(** X14: when the callback completes normally past its guard, the wallet
    has been asked exactly once and every transaction sent has been accepted
    by the connection: a rejected request, query, signature or send always
    makes the callback fail. *)
Theorem normal_completion (h : Hook) (st : State) :
  value (initializeDao h st) = Some tt ->
  events (initializeDao h st) = []
  \/ exists conn,
       connection h = Some conn
       /\ List.length (walletBatches (events (initializeDao h st))) = 1%nat
       /\ forall tx, In tx (sentTransactions (events (initializeDao h st))) ->
                     sendRawTransaction conn tx <> None.
Proof.
  enter h st ltac:(intros _; left; reflexivity).
  do 7 (oracle; [| intros H; discriminate H]).
  oracle; sends'; [| intros H; discriminate H].
  intros H. right. exists conn.
  split; [reflexivity |]. split; [reflexivity |].
  match type of H with
  | (if ?c then _ else _) = _ => destruct c eqn:Hall; [| discriminate H]
  end.
  rewrite forallb_forall in Hall.
  intros tx Hin Hrej. specialize (Hall tx Hin).
  rewrite Hrej in Hall. discriminate Hall.
Qed.

Lemma normal_completion_witness :
  value (initializeDao (Demo.hook None) Demo.start) = Some tt
  /\ (events (initializeDao (Demo.hook None) Demo.start) = []
      \/ exists conn,
           connection (Demo.hook None) = Some conn
           /\ List.length
                (walletBatches (events (initializeDao (Demo.hook None) Demo.start)))
              = 1%nat
           /\ forall tx,
                In tx (sentTransactions
                         (events (initializeDao (Demo.hook None) Demo.start))) ->
                sendRawTransaction conn tx <> None).
Proof.
  assert (H : value (initializeDao (Demo.hook None) Demo.start) = Some tt)
    by (vm_compute; reflexivity).
  split; [exact H |].
  exact (normal_completion (Demo.hook None) Demo.start H).
Defined.

(** X15: only the two vault transactions and the two market transactions
    are ever signed with keypairs, each once and in that order; when the
    wallet is asked, each market transaction carries the signatures of its
    three account keypairs followed by its market keypair, and the DAO
    transaction carries none. *)
Theorem keypair_signatures (h : Hook) (st : State) :
  (exists k, signedVars (events (initializeDao h st)) = firstn k partiallySigned)
  /\ (walletBatches (events (initializeDao h st)) <> [] ->
      signedVars (events (initializeDao h st)) = partiallySigned
      /\ signers (finalTx h st passMarketTx)
         = (skipn 1 (keypairsFrom st 4) ++ firstn 1 (keypairsFrom st 4))%list
      /\ signers (finalTx h st failMarketTx)
         = (skipn 5 (keypairsFrom st 8) ++ firstn 1 (skipn 4 (keypairsFrom st 8)))%list
      /\ signers (finalTx h st daoTx) = []).
Proof.
  unfold finalTx, keypairsFrom.
  enter h st ltac:(split; [exists 0%nat; reflexivity | intros H; now contradiction H]).
  do 7 (oracle; [| split; [exists 0%nat; reflexivity | intros H; now contradiction H]]).
  oracle; sends';
    (split; [exists 4%nat; reflexivity | intros _; repeat split]).
Qed.

(** X16: the guard is exactly the five preconditions: a run performs no
    operation at all if and only if a mint, the wallet key, the wallet's
    [signAllTransactions] or the connection is missing. *)
Theorem guard_exact (h : Hook) (st : State) :
  events (initializeDao h st) = []
  <-> (metaPublicKey h = None \/ usdcPublicKey h = None
       \/ walletPublicKey h = None \/ walletSignAllTransactions h = None
       \/ connection h = None).
Proof.
  split.
  - intros Hnone.
    destruct (metaPublicKey h) as [metaMint |] eqn:Hmeta; [| now left].
    destruct (usdcPublicKey h) as [usdcMint |] eqn:Husdc; [| now right; left].
    destruct (walletPublicKey h) as [walletKey |] eqn:Hwallet;
      [| now right; right; left].
    destruct (walletSignAllTransactions h) as [signAll |] eqn:HsignAll;
      [| now right; right; right; left].
    destruct (connection h) as [conn |] eqn:Hconn;
      [| now right; right; right; right].
    destruct (initializeDao_guard_passed h st) as (mint & rest & Hev);
      try congruence.
  - intros H. unfold initializeDao.
    destruct (metaPublicKey h); [| reflexivity].
    destruct (usdcPublicKey h); [| reflexivity].
    destruct (walletPublicKey h); [| reflexivity].
    destruct (walletSignAllTransactions h); [| reflexivity].
    destruct (connection h); [| reflexivity].
    destruct H as [H | [H | [H | [H | H]]]]; discriminate H.
Qed.
